(** * Range selector and launcher

    A shallow embedding of [webapp/static/app.js] (the two-handle range
    selector of the embedded panel) and of the bash launcher that starts the
    API, the worker and the optional bot, followed by the properties of both
    that the specification states.

    Numbers.  A JavaScript Number is modelled by an exact rational ([Q]):
    the comparisons, [Math.min], [Math.max], [+ 0.5] and [- 0.5] of
    [clampRanges] are the real-number operations, and IEEE rounding of the
    additions is left out.  [NaN], the infinities and magnitudes from
    [10^21] on (where [toFixed] switches to exponent notation) are outside
    the model: the functions that would meet them return [None].

    DOM.  The elements the script looks up are records of the properties it
    reads and writes; a property keeps the value last written to it.

    Module [Page] gives the page script a second time over built-ins that
    are left open, for the properties that do not depend on how a Number
    is rounded or printed and that hold for every text a slider can be
    given, a text that is no number included. *)

From Stdlib Require Import QArith Qminmax Qround Lqa.
From Stdlib Require Import ZArith NArith Lia Bool List String Ascii.
From Stdlib Require Import DecimalString.
Import ListNotations.

Local Open Scope string_scope.
Local Open Scope Q_scope.

(** ** Built-ins of the language used by the script *)

Module JS.

(** The relational operators on numbers. *)
Definition lt (x y : Q) : bool := negb (Qle_bool y x).
Definition gt (x y : Q) : bool := lt y x.
Definition ge (x y : Q) : bool := Qle_bool y x.

Definition Math_min (x y : Q) : Q := Qmin x y.
Definition Math_max (x y : Q) : Q := Qmax x y.

(** Decimal digits of a natural number, as [ToString] prints an integer. *)
Definition digits (n : N) : string :=
  NilEmpty.string_of_uint (N.to_uint n).

(** Value of a run of decimal digits; the empty run counts as 0. *)
Definition digits_value (s : string) : option N :=
  option_map N.of_uint (NilEmpty.uint_of_string s).

(** The text before the first ["."], and the text after it when there is
    one. *)
Fixpoint split_dot (s : string) : string * option string :=
  match s with
  | EmptyString => (EmptyString, None)
  | String c r =>
      if Ascii.eqb c "."%char then (EmptyString, Some r)
      else let (i, f) := split_dot r in (String c i, f)
  end.

Definition is_empty (s : string) : bool :=
  match s with EmptyString => true | _ => false end.

Definition pow10 (k : nat) : Q := inject_Z (10 ^ Z.of_nat k).

(** An unsigned decimal literal: digits, digits with a fraction, or a
    fraction alone.  At least one digit is required. *)
Definition unsigned_literal (s : string) : option Q :=
  match split_dot s with
  | (i, None) =>
      if is_empty i then None
      else option_map (fun n => inject_Z (Z.of_N n)) (digits_value i)
  | (i, Some f) =>
      if is_empty i && is_empty f then None
      else
        match digits_value i, digits_value f with
        | Some a, Some b =>
            Some (inject_Z (Z.of_N a)
                  + inject_Z (Z.of_N b) / pow10 (String.length f))
        | _, _ => None
        end
  end.

(** [Number(s)] for a string in plain decimal notation with an optional
    sign; the empty string is 0.  [None] stands for [NaN] and for the
    literal forms this model leaves out (white space, exponents,
    [Infinity], radix prefixes). *)
Definition Number (s : string) : option Q :=
  match s with
  | EmptyString => Some 0
  | String c r =>
      if Ascii.eqb c "-"%char then option_map Qopp (unsigned_literal r)
      else if Ascii.eqb c "+"%char then unsigned_literal r
      else unsigned_literal s
  end.

(** The integer [n] of [toFixed(1)]: [n / 10] is as close to [x] as
    possible, and of two candidates the larger one is taken. *)
Definition nearest_tenths (x : Q) : Z := Qfloor (10 * x + 0.5).

(** [x.toFixed(1)]: the sign is split off, the magnitude is rounded to
    [n] tenths, and the digits of [n] are printed with the last one after
    the point.  From [10^21] on the built-in prints [ToString(x)], which
    this model does not cover. *)
Definition toFixed1 (x : Q) : option string :=
  let s := if lt x 0 then "-" else "" in
  let x := if lt x 0 then - x else x in
  if ge x (pow10 21) then None
  else
    let n := Z.to_N (nearest_tenths x) in
    Some (s ++ digits (n / 10) ++ "." ++ digits (n mod 10)).

(** Values an object property can hold in this script. *)
Inductive Value : Type :=
| VNum (q : option Q)   (* a Number; [None] is [NaN] *)
| VBool (b : bool).

(** An object literal: properties in insertion order. *)
Definition Object := list (string * Value).

Fixpoint get_prop (k : string) (o : Object) : option Value :=
  match o with
  | [] => None
  | (k', v) :: r => if String.eqb k k' then Some v else get_prop k r
  end.

(** [o.k = v]: an existing property is overwritten in place, a new one is
    added at the end. *)
Fixpoint set_prop (k : string) (v : Value) (o : Object) : Object :=
  match o with
  | [] => [(k, v)]
  | (k', v') :: r =>
      if String.eqb k k' then (k', v) :: r else (k', v') :: set_prop k v r
  end.

(** Truthiness of a property read, [undefined] included. *)
Definition truthy (v : option Value) : bool :=
  match v with
  | Some (VBool b) => b
  | Some (VNum (Some q)) => negb (Qeq_bool q 0)
  | Some (VNum None) => false
  | None => false
  end.

Definition keys (o : Object) : list string := map fst o.

(** [b.toString()] *)
Definition bool_toString (b : bool) : string :=
  if b then "true" else "false".

End JS.

(** ** The range selector, [webapp/static/app.js] *)

Module App.
Import JS.

(** The properties of the elements bound at lines 1-8 that the script
    touches.  [dataset.active] is [None] while the attribute is absent. *)
Record Dom : Type := mkDom {
  startRange_value : string;
  endRange_value : string;
  startValue_textContent : string;
  endValue_textContent : string;
  muteToggle_active : option string;
  audioToggle_active : option string;
  previewButton_classList : list string
}.

Definition set_ranges (s e : string) (d : Dom) : Dom :=
  {| startRange_value := s;
     endRange_value := e;
     startValue_textContent := startValue_textContent d;
     endValue_textContent := endValue_textContent d;
     muteToggle_active := muteToggle_active d;
     audioToggle_active := audioToggle_active d;
     previewButton_classList := previewButton_classList d |}.

Definition set_texts (s e : string) (d : Dom) : Dom :=
  {| startRange_value := startRange_value d;
     endRange_value := endRange_value d;
     startValue_textContent := s;
     endValue_textContent := e;
     muteToggle_active := muteToggle_active d;
     audioToggle_active := audioToggle_active d;
     previewButton_classList := previewButton_classList d |}.

Definition set_toggles (m a : option string) (d : Dom) : Dom :=
  {| startRange_value := startRange_value d;
     endRange_value := endRange_value d;
     startValue_textContent := startValue_textContent d;
     endValue_textContent := endValue_textContent d;
     muteToggle_active := m;
     audioToggle_active := a;
     previewButton_classList := previewButton_classList d |}.

Definition set_classList (l : list string) (d : Dom) : Dom :=
  {| startRange_value := startRange_value d;
     endRange_value := endRange_value d;
     startValue_textContent := startValue_textContent d;
     endValue_textContent := endValue_textContent d;
     muteToggle_active := muteToggle_active d;
     audioToggle_active := audioToggle_active d;
     previewButton_classList := l |}.

(** Lines 18-29 on the numbers read at lines 16-17. *)
Definition normalize (start0 end0 : Q) : Q * Q :=
  let start := start0 in
  let end_ := end0 in
  let end_ :=
    if lt (end_ - start) 0.5 then Math_min 60 (start + 0.5) else end_ in
  let end_ := if gt end_ 60 then 60 else end_ in
  let start := if lt start 0 then 0 else start in
  let start := if ge start end_ then Math_max 0 (end_ - 0.5) else start in
  (start, end_).

(** [clampRanges], lines 15-34. *)
Definition clampRanges (d : Dom) : option Dom :=
  match Number (startRange_value d), Number (endRange_value d) with
  | Some start0, Some end0 =>
      let (start, end_) := normalize start0 end0 in
      match toFixed1 start, toFixed1 end_ with
      | Some s, Some e =>
          Some (set_texts (s ++ "s") (e ++ "s") (set_ranges s e d))
      | _, _ => None
      end
  | _, _ => None
  end.

(** [button.dataset.active === "true"] *)
Definition is_active (a : option string) : bool :=
  match a with
  | Some s => String.eqb s "true"
  | None => false
  end.

(** [toggleButton], lines 39-42, on the button's [dataset.active]. *)
Definition toggleButton (a : option string) : option string :=
  let active := is_active a in
  Some (bool_toString (negb active)).

(** [classList.toggle(t)]: the token is removed when present and added at
    the end otherwise. *)
Definition classList_toggle (t : string) (l : list string) : list string :=
  if existsb (String.eqb t) l
  then filter (fun c => negb (String.eqb t c)) l
  else (l ++ [t])%list.

(** Calls made on the host, in order. *)
Inductive Effect : Type :=
| Expand
| SendData (data : string)
| Close
| Alert (message : string).

(** The payload of lines 52-61. *)
Definition payload (d : Dom) : Object :=
  let payload :=
    [ ("start", VNum (Number (startRange_value d)));
      ("end", VNum (Number (endRange_value d)));
      ("mute", VBool (is_active (muteToggle_active d)));
      ("audioOnly", VBool (is_active (audioToggle_active d))) ] in
  if truthy (get_prop "audioOnly" payload)
  then set_prop "mute" (VBool false) payload
  else payload.

(** The invariants of a range selection: [0 <= start < end <= 60] and a
    width of at least half a second. *)
Definition valid (p : Q * Q) : Prop :=
  0 <= fst p /\ fst p < snd p /\ snd p <= 60 /\ 0.5 <= snd p - fst p.

(** A page whose two sliders hold [s] and [e]; nothing is displayed yet,
    no toggle carries the attribute and the preview button has no class. *)
Definition page (s e : string) : Dom :=
  {| startRange_value := s;
     endRange_value := e;
     startValue_textContent := "";
     endValue_textContent := "";
     muteToggle_active := None;
     audioToggle_active := None;
     previewButton_classList := [] |}.

(** The bounds a submission made right after [clampRanges] reads are the
    numbers that [normalize] computed, without any rounding. *)
Definition submits_unrounded (d : Dom) : Prop :=
  forall d' a b,
    Number (startRange_value d) = Some a ->
    Number (endRange_value d) = Some b ->
    clampRanges d = Some d' ->
    exists s e,
      get_prop "start" (payload d') = Some (VNum (Some s))
      /\ get_prop "end" (payload d') = Some (VNum (Some e))
      /\ s == fst (normalize a b) /\ e == snd (normalize a b).

(** What the user can do to the page. *)
Inductive Event : Type :=
| InputStart (v : string)   (* the start slider is moved to [v] *)
| InputEnd (v : string)     (* the end slider is moved to [v] *)
| ClickMute
| ClickAudio
| ClickPreview
| ClickSubmit.

Definition is_preview (e : Event) : bool :=
  match e with ClickPreview => true | _ => false end.

(** The events of [es] that are not clicks on the preview button. *)
Definition without_preview (es : list Event) : list Event :=
  filter (fun e => negb (is_preview e)) es.

(** Two pages that differ at most in the class list of the preview
    button. *)
Definition same_but_classList (d1 d2 : Dom) : Prop :=
  set_classList [] d1 = set_classList [] d2.

Section Host.

(** [JSON.stringify(value, null, space)], a built-in taken as given. *)
Variable JSON_stringify : Object -> option nat -> string.

(** Whether [window.Telegram?.WebApp] is there, line 10. *)
Variable tg : bool.

(** The click handler of the submit button, lines 51-69. *)
Definition submit (d : Dom) : Dom * list Effect :=
  let p := payload d in
  if tg
  then (d, [SendData (JSON_stringify p None); Close])
  else (d, [Alert ("Payload: " ++ JSON_stringify p (Some 2%nat))]).

(** Top-level statements run when the script is loaded: lines 10-13 and
    the call at line 71. *)
Definition load (d : Dom) : option (Dom * list Effect) :=
  option_map (fun d' => (d', if tg then [Expand] else [])) (clampRanges d).

(** The listeners registered at lines 36-37, 44-45, 47-49 and 51-69. *)
Definition handle (e : Event) (d : Dom) : option (Dom * list Effect) :=
  match e with
  | InputStart v =>
      option_map (fun d' => (d', []))
        (clampRanges (set_ranges v (endRange_value d) d))
  | InputEnd v =>
      option_map (fun d' => (d', []))
        (clampRanges (set_ranges (startRange_value d) v d))
  | ClickMute =>
      Some (set_toggles (toggleButton (muteToggle_active d))
              (audioToggle_active d) d, [])
  | ClickAudio =>
      Some (set_toggles (muteToggle_active d)
              (toggleButton (audioToggle_active d)) d, [])
  | ClickPreview =>
      Some (set_classList
              (classList_toggle "active" (previewButton_classList d)) d,
            [])
  | ClickSubmit => Some (submit d)
  end.

(** A sequence of events handled one after the other, each to
    completion; the effects accumulate in order. *)
Fixpoint run (es : list Event) (d : Dom) : option (Dom * list Effect) :=
  match es with
  | [] => Some (d, [])
  | e :: r =>
      match handle e d with
      | Some (d1, fx1) =>
          match run r d1 with
          | Some (d2, fx2) => Some (d2, (fx1 ++ fx2)%list)
          | None => None
          end
      | None => None
      end
  end.

End Host.

(** *** Vocabulary for the properties of the page *)

(** The two displayed texts are the slider values followed by the letter
    s. *)
Definition displayed (d : Dom) : Prop :=
  startValue_textContent d = startRange_value d ++ "s"
  /\ endValue_textContent d = endRange_value d ++ "s".

(** A stand-in for [JSON.stringify] in examples: every value is printed as
    the empty text. *)
Definition blank_stringify (o : Object) (space : option nat) : string := "".

(** [classList.contains(t)] *)
Definition has_class (t : string) (l : list string) : bool :=
  existsb (String.eqb t) l.

Definition is_submit (e : Event) : bool :=
  match e with ClickSubmit => true | _ => false end.

Definition is_input (e : Event) : bool :=
  match e with InputStart _ | InputEnd _ => true | _ => false end.

(** The calls a page with ([tg] true) or without a host makes when a
    listener runs. *)
Definition listener_call (tg : bool) (c : Effect) : bool :=
  match c with
  | Expand => false
  | SendData _ | Close => tg
  | Alert _ => negb tg
  end.

(** Pairs of events whose listeners touch different parts of the page, or
    none: a preview click with anything, the two toggles with each other
    and with a move of a slider. *)
Definition apart (e1 e2 : Event) : bool :=
  match e1, e2 with
  | ClickPreview, _ | _, ClickPreview => true
  | ClickMute, ClickAudio | ClickAudio, ClickMute => true
  | (ClickMute | ClickAudio), (InputStart _ | InputEnd _) => true
  | (InputStart _ | InputEnd _), (ClickMute | ClickAudio) => true
  | _, _ => false
  end.

End App.

(** ** The page script over its built-ins

    The same script once more, with the built-ins it applies to numbers
    taken as they come: nothing is fixed about [Number], the arithmetic, the
    comparisons, [Math.min], [Math.max], [toFixed] or [JSON.stringify].  A
    Number may be any binary64 value, [NaN] included, and a slider may hold
    any text; every function of the script is total.  What is proved of
    these definitions holds whatever the built-ins do. *)

Module Page.
Import App.

(** Values an object property can hold in this script. *)
Inductive Value (num : Type) : Type :=
| VNum (x : num)
| VBool (b : bool).
Arguments VNum {num} x.
Arguments VBool {num} b.

(** An object literal: properties in insertion order. *)
Definition Object (num : Type) : Type := list (string * Value num).

(** The built-ins and the three numeric literals of the script. *)
Class Builtins (num : Type) : Type := {
  Number : string -> num;                  (* [Number(text)] *)
  zero : num;                              (* the literal [0] *)
  half : num;                              (* the literal [0.5] *)
  sixty : num;                             (* the literal [60] *)
  minus : num -> num -> num;               (* [x - y] *)
  plus : num -> num -> num;                (* [x + y] *)
  lt : num -> num -> bool;                 (* [x < y] *)
  gt : num -> num -> bool;                 (* [x > y] *)
  ge : num -> num -> bool;                 (* [x >= y] *)
  Math_min : num -> num -> num;
  Math_max : num -> num -> num;
  toFixed1 : num -> string;                (* [x.toFixed(1)] *)
  ToBoolean : num -> bool;                 (* a Number used as a condition *)
  JSON_stringify : Object num -> option nat -> string
}.

Section Script.

Context {num : Type} {B : Builtins num}.

Fixpoint get_prop (k : string) (o : Object num) : option (Value num) :=
  match o with
  | [] => None
  | (k', v) :: r => if String.eqb k k' then Some v else get_prop k r
  end.

(** [o.k = v]: an existing property is overwritten in place, a new one is
    added at the end. *)
Fixpoint set_prop (k : string) (v : Value num) (o : Object num)
  : Object num :=
  match o with
  | [] => [(k, v)]
  | (k', v') :: r =>
      if String.eqb k k' then (k', v) :: r else (k', v') :: set_prop k v r
  end.

(** Truthiness of a property read, [undefined] included. *)
Definition truthy (v : option (Value num)) : bool :=
  match v with
  | Some (VBool b) => b
  | Some (VNum x) => ToBoolean x
  | None => false
  end.

(** Lines 18-29 on the Numbers read at lines 16-17. *)
Definition normalize (start0 end0 : num) : num * num :=
  let start := start0 in
  let end_ := end0 in
  let end_ :=
    if lt (minus end_ start) half
    then Math_min sixty (plus start half) else end_ in
  let end_ := if gt end_ sixty then sixty else end_ in
  let start := if lt start zero then zero else start in
  let start :=
    if ge start end_ then Math_max zero (minus end_ half) else start in
  (start, end_).

(** [clampRanges], lines 15-34. *)
Definition clampRanges (d : Dom) : Dom :=
  let (start, end_) :=
    normalize (Number (startRange_value d)) (Number (endRange_value d)) in
  set_texts (toFixed1 start ++ "s") (toFixed1 end_ ++ "s")
    (set_ranges (toFixed1 start) (toFixed1 end_) d).

(** The payload of lines 52-61. *)
Definition payload (d : Dom) : Object num :=
  let payload :=
    [ ("start", VNum (Number (startRange_value d)));
      ("end", VNum (Number (endRange_value d)));
      ("mute", VBool (is_active (muteToggle_active d)));
      ("audioOnly", VBool (is_active (audioToggle_active d))) ] in
  if truthy (get_prop "audioOnly" payload)
  then set_prop "mute" (VBool false) payload
  else payload.

(** Whether [window.Telegram?.WebApp] is there, line 10. *)
Variable tg : bool.

(** The click handler of the submit button, lines 51-69. *)
Definition submit (d : Dom) : Dom * list Effect :=
  let p := payload d in
  if tg
  then (d, [SendData (JSON_stringify p None); Close])
  else (d, [Alert ("Payload: " ++ JSON_stringify p (Some 2%nat))]).

(** Top-level statements run when the script is loaded: lines 10-13 and
    the call at line 71. *)
Definition load (d : Dom) : Dom * list Effect :=
  (clampRanges d, if tg then [Expand] else []).

(** The listeners registered at lines 36-37, 44-45, 47-49 and 51-69.  A
    move of a slider sets its value and then runs the listener. *)
Definition handle (e : Event) (d : Dom) : Dom * list Effect :=
  match e with
  | InputStart v => (clampRanges (set_ranges v (endRange_value d) d), [])
  | InputEnd v => (clampRanges (set_ranges (startRange_value d) v d), [])
  | ClickMute =>
      (set_toggles (toggleButton (muteToggle_active d))
         (audioToggle_active d) d, [])
  | ClickAudio =>
      (set_toggles (muteToggle_active d)
         (toggleButton (audioToggle_active d)) d, [])
  | ClickPreview =>
      (set_classList
         (classList_toggle "active" (previewButton_classList d)) d, [])
  | ClickSubmit => submit d
  end.

(** A sequence of events handled one after the other, each to
    completion; the calls on the host accumulate in order. *)
Fixpoint run (es : list Event) (d : Dom) : Dom * list Effect :=
  match es with
  | [] => (d, [])
  | e :: r =>
      let (d1, fx1) := handle e d in
      let (d2, fx2) := run r d1 in
      (d2, (fx1 ++ fx2)%list)
  end.

(** The page after the script has been loaded and the events [es] have
    been handled, with all calls made on the host. *)
Definition session (es : list Event) (d : Dom) : Dom * list Effect :=
  let (d0, fx0) := load d in
  let (d', fx) := run es d0 in
  (d', (fx0 ++ fx)%list).

(** Both sliders hold a text that [toFixed(1)] has produced. *)
Definition holds_toFixed_texts (d : Dom) : Prop :=
  (exists x, startRange_value d = toFixed1 x)
  /\ (exists y, endRange_value d = toFixed1 y).

End Script.

End Page.

(** ** The launcher script

    The bash script that follows the page script in the source: it runs
    under [set -euo pipefail], starts the API and the worker in the
    background, starts the bot when [TELEGRAM_BOT_TOKEN] is set, installs
    [cleanup] as the [EXIT] trap and blocks in [wait].  Every [echo] is a
    write that can fail (a closed descriptor, a terminal that has hung up, a
    full disk); under [set -e] a failed one ends the script, or the trap it
    runs in, on the spot. *)

Module Launcher.

Definition pid := positive.

Inductive Proc : Type := api | worker | bot.

(** The lines the script prints; the wording is left out. *)
Inductive Message : Type :=
| UvicornNotFound                  (* line 80, on stderr *)
| Started (p : Proc) (id : pid)    (* lines 87, 92, 98 *)
| BotSkipped                       (* line 100 *)
| Stopping.                        (* line 104 *)

(** What the script does to the outside, in order. *)
Inductive Event : Type :=
| Spawn (p : Proc) (id : pid)      (* a job put in the background *)
| Echo (m : Message)
| Kill (id : pid) (delivered : bool)
| Wait (id : pid) (status : Z)     (* [wait] on [id] has returned *)
| Exit (status : Z).

(** What the script finds around it. *)
Record Env : Type := mkEnv {
  root_dir : option string;            (* lines 75, 77; [None]: no entry *)
  PYTHONPATH : option string;          (* [None]: unset *)
  has_uvicorn : bool;                  (* [command -v uvicorn] *)
  TELEGRAM_BOT_TOKEN : option string;  (* [None]: unset *)
  new_pid : Proc -> pid;               (* the value of [$!] after a launch *)
  kill_delivered : pid -> bool;        (* whether a signal can be sent *)
  wait_status : pid -> Z;              (* what [wait] on the pid returns *)
  echo_ok : Message -> bool            (* whether the line can be written *)
}.

(** The shell variables of the script, the trap, and the events so far.
    A variable that is unset or empty is [None]. *)
Record Shell : Type := mkShell {
  API_PID : option pid;
  WORKER_PID : option pid;
  BOT_PID : option pid;
  trap_EXIT : bool;
  trace : list Event
}.

Definition initial : Shell :=
  {| API_PID := None; WORKER_PID := None; BOT_PID := None;
     trap_EXIT := false; trace := [] |}.

(** A piece of script either runs through or makes the shell exit. *)
Inductive Result (A : Type) : Type :=
| Done (a : A)
| Exiting (status : Z).
Arguments Done {A} a.
Arguments Exiting {A} status.

Definition Sh (A : Type) : Type := Shell -> Result A * Shell.

Definition ret {A} (a : A) : Sh A := fun sh => (Done a, sh).

Definition bind {A B} (m : Sh A) (k : A -> Sh B) : Sh B :=
  fun sh =>
    match m sh with
    | (Done a, sh') => k a sh'
    | (Exiting st, sh') => (Exiting st, sh')
    end.

Notation "x <- m ;; k" := (bind m (fun x => k))
  (at level 61, m at next level, right associativity).
Notation "m ;;; k" := (bind m (fun _ => k))
  (at level 61, right associativity).

Definition with_trace (tr : list Event) (sh : Shell) : Shell :=
  {| API_PID := API_PID sh; WORKER_PID := WORKER_PID sh;
     BOT_PID := BOT_PID sh; trap_EXIT := trap_EXIT sh; trace := tr |}.

Definition emit (e : Event) : Sh unit :=
  fun sh => (Done tt, with_trace (trace sh ++ [e])%list sh).

Definition get {A} (f : Shell -> A) : Sh A := fun sh => (Done (f sh), sh).

Definition set_API_PID (v : option pid) : Sh unit :=
  fun sh =>
    (Done tt,
     {| API_PID := v; WORKER_PID := WORKER_PID sh; BOT_PID := BOT_PID sh;
        trap_EXIT := trap_EXIT sh; trace := trace sh |}).

Definition set_WORKER_PID (v : option pid) : Sh unit :=
  fun sh =>
    (Done tt,
     {| API_PID := API_PID sh; WORKER_PID := v; BOT_PID := BOT_PID sh;
        trap_EXIT := trap_EXIT sh; trace := trace sh |}).

Definition set_BOT_PID (v : option pid) : Sh unit :=
  fun sh =>
    (Done tt,
     {| API_PID := API_PID sh; WORKER_PID := WORKER_PID sh; BOT_PID := v;
        trap_EXIT := trap_EXIT sh; trace := trace sh |}).

(** [trap cleanup EXIT] *)
Definition trap_cleanup_EXIT : Sh unit :=
  fun sh =>
    (Done tt,
     {| API_PID := API_PID sh; WORKER_PID := WORKER_PID sh;
        BOT_PID := BOT_PID sh; trap_EXIT := true; trace := trace sh |}).

(** [exit n] *)
Definition exit {A} (status : Z) : Sh A := fun sh => (Exiting status, sh).

(** [set -e]: a command that fails, outside a condition or an [||] list,
    ends the script with its status. *)
Definition errexit (status : Z) : Sh unit :=
  if Z.eqb status 0 then ret tt else exit status.

(** [set -u]: expanding a parameter that is not set ends the script with
    status 1. *)
Definition nounset {A} (v : option A) : Sh A :=
  match v with
  | Some a => ret a
  | None => exit 1
  end.

(** [[ -n "${v:-}" ]] *)
Definition non_empty (v : option string) : bool :=
  match v with
  | Some s => negb (String.eqb s "")
  | None => false
  end.

(** [${v:+$v}]: a word when [v] is set and not empty, nothing otherwise. *)
Definition if_set (v : option pid) : list pid :=
  match v with
  | Some id => [id]
  | None => []
  end.

(** The requests to terminate that bash answers by running its [EXIT]
    trap and then ending.  [SIGKILL] and [SIGSTOP] never reach a script and
    are no such requests. *)
Inductive Signal : Type := SIGHUP | SIGINT | SIGTERM.

Definition signal_number (s : Signal) : Z :=
  match s with
  | SIGHUP => 1
  | SIGINT => 2
  | SIGTERM => 15
  end.

(** Why the shell leaves the [wait] of line 111. *)
Inductive Trigger : Type :=
| ChildrenExited             (* every child has ended by itself *)
| Signalled (s : Signal).    (* a request to terminate reached the shell *)

(** The status the shell ends with after an undisturbed trap: that of
    [wait], or 128 plus the number of the signal. *)
Definition status_of (t : Trigger) : Z :=
  match t with
  | ChildrenExited => 0
  | Signalled s => 128 + signal_number s
  end%Z.

(** How the shell comes to its end: the script ends or calls [exit] with
    a status, or a signal asks it to terminate. *)
Inductive Ending : Type :=
| ByStatus (status : Z)
| BySignal (s : Signal).

Definition ending_status (e : Ending) : Z :=
  match e with
  | ByStatus st => st
  | BySignal s => 128 + signal_number s
  end%Z.

Section Script.

Variable env : Env.

(** [echo]: the line is written, or the write fails with status 1, which
    under [set -e] ends the script. *)
Definition echo (m : Message) : Sh unit :=
  if echo_ok env m then emit (Echo m) else exit 1.

(** [cmd &] followed by reading [$!]. *)
Definition launch (p : Proc) : Sh pid :=
  emit (Spawn p (new_pid env p)) ;;; ret (new_pid env p).

(** The [kill] built-in: every operand is signalled in turn, and the
    status is 0 when at least one signal was delivered and 1 otherwise. *)
Fixpoint signal_each (ids : list pid) : Sh bool :=
  match ids with
  | [] => ret false
  | id :: r =>
      emit (Kill id (kill_delivered env id)) ;;;
      some <- signal_each r ;;
      ret (kill_delivered env id || some)
  end.

Definition kill (ids : list pid) : Sh Z :=
  some <- signal_each ids ;; ret (if some then 0 else 1)%Z.

(** The [wait] built-in with operands: each one is waited for in turn;
    the status is that of the last. *)
Fixpoint wait (last : Z) (ids : list pid) : Sh Z :=
  match ids with
  | [] => ret last
  | id :: r =>
      emit (Wait id (wait_status env id)) ;;; wait (wait_status env id) r
  end.

(** [cmd || true] *)
Definition or_true (c : Sh Z) : Sh unit := c ;;; ret tt.

(** Lines 73-101: everything before the trap is installed. *)
Definition start_children : Sh unit :=
  errexit (match root_dir env with Some _ => 0 | None => 1 end)%Z ;;; (* 75 *)
  nounset (PYTHONPATH env) ;;;                            (* 76 *)
  (if negb (has_uvicorn env)                              (* 79-82 *)
   then echo UvicornNotFound ;;; exit 1
   else ret tt) ;;;
  id <- launch api ;;                                     (* 84 *)
  set_API_PID (Some id) ;;;                               (* 85 *)
  echo (Started api id) ;;;                               (* 87 *)
  id <- launch worker ;;                                  (* 89 *)
  set_WORKER_PID (Some id) ;;;                            (* 90 *)
  echo (Started worker id) ;;;                            (* 92 *)
  set_BOT_PID None ;;;                                    (* 94 *)
  (if non_empty (TELEGRAM_BOT_TOKEN env)                  (* 95 *)
   then
     id <- launch bot ;;                                  (* 96 *)
     set_BOT_PID (Some id) ;;;                            (* 97 *)
     echo (Started bot id)                                (* 98 *)
   else echo BotSkipped).                                 (* 100 *)

(** [cleanup], lines 103-107. *)
Definition cleanup : Sh unit :=
  echo Stopping ;;;
  a <- (v <- get API_PID ;; nounset v) ;;
  w <- (v <- get WORKER_PID ;; nounset v) ;;
  b <- get BOT_PID ;;
  or_true (kill (a :: w :: if_set b)) ;;;
  or_true (wait 0 (a :: w :: if_set b)).

(** Lines 73-109. *)
Definition startup : Sh unit :=
  start_children ;;; trap_cleanup_EXIT.

(** Leaving the shell: the [EXIT] trap runs when it is installed, then
    the shell ends.  A command that fails in the trap under [set -e] ends
    the trap there; the shell then ends with the status of that command,
    unless a signal made it leave, which still decides the status. *)
Definition leave (e : Ending) (sh : Shell) : list Event :=
  if trap_EXIT sh then
    match cleanup sh with
    | (Done _, sh') => (trace sh' ++ [Exit (ending_status e)])%list
    | (Exiting st, sh') =>
        (trace sh'
         ++ [Exit (match e with
                   | ByStatus _ => st
                   | BySignal _ => ending_status e
                   end)])%list
    end
  else (trace sh ++ [Exit (ending_status e)])%list.

(** The whole run: startup, then line 111 until [t] happens. *)
Definition run (t : Trigger) : list Event :=
  match startup initial with
  | (Done _, sh) =>
      leave (match t with
             | ChildrenExited => ByStatus 0
             | Signalled s => BySignal s
             end) sh
  | (Exiting st, sh) => leave (ByStatus st) sh
  end.

(** The script has reached line 111 with its children started. *)
Definition Running (sh : Shell) : Prop :=
  startup initial = (Done tt, sh).

End Script.

(** Lines 75-82 let the script through: the root directory resolves,
    [PYTHONPATH] is set and [uvicorn] is found. *)
Definition prerequisites (env : Env) : bool :=
  match root_dir env, PYTHONPATH env with
  | Some _, Some _ => has_uvicorn env
  | _, _ => false
  end.

(** Lines 73-101 run to their end: lines 75-82 let the script through and
    each of its start messages can be written. *)
Definition gets_through (env : Env) : bool :=
  prerequisites env
  && echo_ok env (Started api (new_pid env api))
  && echo_ok env (Started worker (new_pid env worker))
  && (if non_empty (TELEGRAM_BOT_TOKEN env)
      then echo_ok env (Started bot (new_pid env bot))
      else echo_ok env BotSkipped).

(** The state of the shell at line 111 when lines 73-101 have run to their
    end. *)
Definition at_wait (env : Env) : Shell :=
  let a := new_pid env api in
  let w := new_pid env worker in
  let b := new_pid env bot in
  {| API_PID := Some a;
     WORKER_PID := Some w;
     BOT_PID := if non_empty (TELEGRAM_BOT_TOKEN env) then Some b else None;
     trap_EXIT := true;
     trace :=
       [Spawn api a; Echo (Started api a);
        Spawn worker w; Echo (Started worker w)]
       ++ (if non_empty (TELEGRAM_BOT_TOKEN env)
           then [Spawn bot b; Echo (Started bot b)]
           else [Echo BotSkipped]) |}.

(** An environment for examples: the root directory resolves,
    [PYTHONPATH] is set, the children get the process ids 101, 102 and
    103, the API has already ended when it is signalled, every [wait]
    returns 143 and every line can be written. *)
Definition example_env (uvicorn : bool) (token : option string) : Env :=
  {| root_dir := Some "/srv/app";
     PYTHONPATH := Some "";
     has_uvicorn := uvicorn;
     TELEGRAM_BOT_TOKEN := token;
     new_pid := fun p =>
       match p with
       | api => 101 | worker => 102 | bot => 103
       end%positive;
     kill_delivered := fun id => negb (Pos.eqb id 101);
     wait_status := fun _ => 143%Z;
     echo_ok := fun _ => true |}.

(** The environment [env] with another answer to which lines can be
    written. *)
Definition with_echo_ok (ok : Message -> bool) (env : Env) : Env :=
  {| root_dir := root_dir env;
     PYTHONPATH := PYTHONPATH env;
     has_uvicorn := has_uvicorn env;
     TELEGRAM_BOT_TOKEN := TELEGRAM_BOT_TOKEN env;
     new_pid := new_pid env;
     kill_delivered := kill_delivered env;
     wait_status := wait_status env;
     echo_ok := ok |}.

(** The environment [env] with [PYTHONPATH] unset. *)
Definition without_PYTHONPATH (env : Env) : Env :=
  {| root_dir := root_dir env;
     PYTHONPATH := None;
     has_uvicorn := has_uvicorn env;
     TELEGRAM_BOT_TOKEN := TELEGRAM_BOT_TOKEN env;
     new_pid := new_pid env;
     kill_delivered := kill_delivered env;
     wait_status := wait_status env;
     echo_ok := echo_ok env |}.

(** Every line can be written but the announcement of line 104. *)
Definition all_but_Stopping (m : Message) : bool :=
  match m with Stopping => false | _ => true end.

(** The status the shell ended with, when the trace ends in an exit. *)
Fixpoint exit_status (tr : list Event) : option Z :=
  match tr with
  | [] => None
  | [Exit st] => Some st
  | _ :: r => exit_status r
  end.

(** The children launched along a trace, with their process ids. *)
Fixpoint spawned (tr : list Event) : list (Proc * pid) :=
  match tr with
  | [] => []
  | Spawn p id :: r => (p, id) :: spawned r
  | _ :: r => spawned r
  end.

(** The operands [kill] signalled along a trace. *)
Fixpoint killed (tr : list Event) : list pid :=
  match tr with
  | [] => []
  | Kill id _ :: r => id :: killed r
  | _ :: r => killed r
  end.

(** The operands [wait] returned from along a trace. *)
Fixpoint waited (tr : list Event) : list pid :=
  match tr with
  | [] => []
  | Wait id _ :: r => id :: waited r
  | _ :: r => waited r
  end.

(** The environment [env] with the token replaced. *)
Definition with_token (token : option string) (env : Env) : Env :=
  {| root_dir := root_dir env;
     PYTHONPATH := PYTHONPATH env;
     has_uvicorn := has_uvicorn env;
     TELEGRAM_BOT_TOKEN := token;
     new_pid := new_pid env;
     kill_delivered := kill_delivered env;
     wait_status := wait_status env;
     echo_ok := echo_ok env |}.


End Launcher.

(** * Properties *)

Import JS App.

(** ** Numbers *)

Section NumberFacts.

Lemma lt_spec x y : lt x y = true <-> x < y.
Proof.
  unfold lt. rewrite negb_true_iff.
  destruct (Qle_bool y x) eqn:E.
  - apply Qle_bool_iff in E. split; [discriminate | intros H; exfalso; lra].
  - split; [intros _ | reflexivity].
    destruct (Qlt_le_dec x y) as [H|H]; [exact H|].
    apply Qle_bool_iff in H. congruence.
Qed.

Lemma ge_spec x y : ge x y = true <-> y <= x.
Proof. unfold ge. apply Qle_bool_iff. Qed.

Lemma lt_cases x y : (lt x y = true /\ x < y) \/ (lt x y = false /\ y <= x).
Proof.
  destruct (lt x y) eqn:E.
  - left. split; [reflexivity | now apply lt_spec].
  - right. split; [reflexivity|].
    destruct (Qlt_le_dec x y) as [H|H]; [|exact H].
    apply lt_spec in H. congruence.
Qed.

Lemma gt_cases x y : (gt x y = true /\ y < x) \/ (gt x y = false /\ x <= y).
Proof. unfold gt. apply lt_cases. Qed.

Lemma ge_cases x y : (ge x y = true /\ y <= x) \/ (ge x y = false /\ x < y).
Proof.
  destruct (ge x y) eqn:E.
  - left. split; [reflexivity | now apply ge_spec].
  - right. split; [reflexivity|].
    destruct (Qlt_le_dec x y) as [H|H]; [exact H|].
    apply ge_spec in H. congruence.
Qed.

Lemma Math_min_cases x y :
  (x <= y /\ Math_min x y = x) \/ (y < x /\ Math_min x y = y).
Proof.
  unfold Math_min, Qmin, GenericMinMax.gmin.
  destruct (Qcompare_spec x y) as [H|H|H]; [left|left|right];
    (split; [lra | reflexivity]).
Qed.

Lemma Math_max_cases x y :
  (x < y /\ Math_max x y = y) \/ (y <= x /\ Math_max x y = x).
Proof.
  unfold Math_max, Qmax, GenericMinMax.gmax.
  destruct (Qcompare_spec x y) as [H|H|H]; [right|left|right];
    (split; [lra | reflexivity]).
Qed.

End NumberFacts.

(** Splits every comparison, minimum and maximum in the goal into its cases,
    each with the order fact that selects it. *)
Ltac is_plain t :=
  lazymatch t with
  | context [JS.lt _ _] => fail
  | context [JS.gt _ _] => fail
  | context [JS.ge _ _] => fail
  | context [JS.Math_min _ _] => fail
  | context [JS.Math_max _ _] => fail
  | _ => idtac
  end.

Ltac split_case :=
  match goal with
  | |- context [JS.lt ?x ?y] =>
      is_plain x; is_plain y; destruct (lt_cases x y) as [[-> ?]|[-> ?]]
  | |- context [JS.gt ?x ?y] =>
      is_plain x; is_plain y; destruct (gt_cases x y) as [[-> ?]|[-> ?]]
  | |- context [JS.ge ?x ?y] =>
      is_plain x; is_plain y; destruct (ge_cases x y) as [[-> ?]|[-> ?]]
  | |- context [JS.Math_min ?x ?y] =>
      is_plain x; is_plain y; destruct (Math_min_cases x y) as [[? ->]|[? ->]]
  | |- context [JS.Math_max ?x ?y] =>
      is_plain x; is_plain y; destruct (Math_max_cases x y) as [[? ->]|[? ->]]
  end; cbv iota; cbn [fst snd].

Ltac split_cases := repeat split_case.

(** ** [clampRanges] on the page *)

Section ClampRanges.

(** What a call of [clampRanges] that stays inside the model has done. *)
Lemma clampRanges_inv d d' :
  clampRanges d = Some d' ->
  exists a b s e,
    Number (startRange_value d) = Some a
    /\ Number (endRange_value d) = Some b
    /\ toFixed1 (fst (normalize a b)) = Some s
    /\ toFixed1 (snd (normalize a b)) = Some e
    /\ d' = set_texts (s ++ "s") (e ++ "s") (set_ranges s e d).
Proof.
  unfold clampRanges.
  destruct (Number (startRange_value d)) as [a|]; [|discriminate].
  destruct (Number (endRange_value d)) as [b|]; [|discriminate].
  destruct (normalize a b) as [st en] eqn:En.
  destruct (toFixed1 st) as [s|] eqn:Hs; [|discriminate].
  destruct (toFixed1 en) as [e|] eqn:He; [|discriminate].
  intros [= <-]. exists a, b, s, e. rewrite En. cbn [fst snd].
  repeat split; (reflexivity || assumption).
Qed.

End ClampRanges.

(** ** The range invariants: C1 to C4 *)

Section RangeProperties.

(** C1.  The specification wants every pair of proposed bounds normalised
    to a selection with [0 <= start < end <= 60] and a width of at least
    0.5.  With the start slider at 59.8 and the end slider at 59.9 the
    function returns (59.8, 60): the end is capped at 60 and the start,
    which is below the end, is left where it is, so the width is 0.2; the
    page then stores 59.8 and 60.0. *)
Theorem normalize_loses_minimum_width :
  normalize 59.8 59.9 = (59.8, 60)
  /\ ~ valid (normalize 59.8 59.9)
  /\ ~ 0.5 <= snd (normalize 59.8 59.9) - fst (normalize 59.8 59.9)
  /\ option_map (fun d => (startRange_value d, endRange_value d))
       (clampRanges (page "59.8" "59.9")) = Some ("59.8", "60.0").
Proof.
  assert (normalize 59.8 59.9 = (59.8, 60)) as E by reflexivity.
  rewrite E. cbn [fst snd]. unfold valid. cbn [fst snd].
  repeat split; try reflexivity; intros H; lra.
Qed.

(** C2.  The specification wants a second normalisation, which reads the
    values the first one stored, to change nothing.  With the start slider
    at 59.96 and the end slider at 60 the first call leaves the start where
    it is and stores its rounding, 60.0, next to the end 60.0; the second
    call reads start = end = 60 and moves the start to 59.5.  Without any
    rounding, (-10, -5) is normalised to (0, -5) and that pair to
    (0, 0.5). *)
Theorem clampRanges_second_call_differs :
  exists d1 d2,
    clampRanges (page "59.96" "60") = Some d1
    /\ clampRanges d1 = Some d2
    /\ (startRange_value d1, endRange_value d1) = ("60.0", "60.0")
    /\ (startRange_value d2, endRange_value d2) = ("59.5", "60.0")
    /\ d1 <> d2
    /\ normalize (-10) (-5) = (0, -5)
    /\ normalize 0 (-5) = (0, 0.5).
Proof.
  exists (set_texts "60.0s" "60.0s" (set_ranges "60.0" "60.0" (page "" ""))).
  exists (set_texts "59.5s" "60.0s" (set_ranges "59.5" "60.0" (page "" ""))).
  repeat split; try reflexivity.
  discriminate.
Qed.

(** C3.  The specification gives [normalize(59.8, 61)] the result start
    59.5 and end 60.  The end is clamped to 60, but the start is only moved
    when it has reached the end, which 59.8 has not: the result is
    (59.8, 60), and the page stores 59.8 and 60.0. *)
Theorem normalize_59_8_61 :
  normalize 59.8 61 = (59.8, 60)
  /\ ~ fst (normalize 59.8 61) == 59.5
  /\ option_map (fun d => (startRange_value d, endRange_value d))
       (clampRanges (page "59.8" "61")) = Some ("59.8", "60.0").
Proof.
  split; [reflexivity|]. split; [|reflexivity].
  intros H. vm_compute in H. discriminate.
Qed.

(** C4 as the specification has it, with the stored bounds at full
    precision, does not hold: with the start slider at 10.26 the normalised
    start is 10.26, the slider is set to the text 10.3, and a submission
    reads 10.3. *)
Lemma submission_reads_rounded_start :
  ~ submits_unrounded (page "10.26" "20").
Proof.
  intros H.
  destruct (H _ _ _ eq_refl eq_refl eq_refl) as (s & e & Hs & _ & Es & _).
  vm_compute in Hs. injection Hs as <-.
  vm_compute in Es. discriminate.
Qed.

End RangeProperties.

(** ** The page script over open built-ins: C4 *)

Section PageProperties.
Import Page.

Context {num : Type} {B : Builtins num}.

Lemma page_payload_start d :
  get_prop "start" (payload d) = Some (VNum (Number (startRange_value d))).
Proof.
  unfold payload. cbn. now destruct (is_active (audioToggle_active d)).
Qed.

Lemma page_payload_end d :
  get_prop "end" (payload d) = Some (VNum (Number (endRange_value d))).
Proof.
  unfold payload. cbn. now destruct (is_active (audioToggle_active d)).
Qed.

(** What [clampRanges] writes, field by field. *)
Lemma page_clampRanges_fields d :
  let r :=
    normalize (Number (startRange_value d)) (Number (endRange_value d)) in
  clampRanges d
  = set_texts (toFixed1 (fst r) ++ "s") (toFixed1 (snd r) ++ "s")
      (set_ranges (toFixed1 (fst r)) (toFixed1 (snd r)) d).
Proof.
  unfold clampRanges. cbv zeta.
  now destruct (normalize (Number (startRange_value d))
                  (Number (endRange_value d))).
Qed.

(** C4, amended.  After a call of [clampRanges], whatever the sliders held
    and whatever the normalised bounds are, each slider holds the text that
    [toFixed(1)] gives for its bound and not the bound itself, each
    displayed text is that same text followed by the letter s, and a
    submission made next reads [Number] of the stored text for each
    bound. *)
Theorem clampRanges_stores_toFixed_text (d : Dom) :
  let r :=
    normalize (Number (startRange_value d)) (Number (endRange_value d)) in
  let d' := clampRanges d in
  startRange_value d' = toFixed1 (fst r)
  /\ endRange_value d' = toFixed1 (snd r)
  /\ startValue_textContent d' = startRange_value d' ++ "s"
  /\ endValue_textContent d' = endRange_value d' ++ "s"
  /\ get_prop "start" (payload d') = Some (VNum (Number (toFixed1 (fst r))))
  /\ get_prop "end" (payload d') = Some (VNum (Number (toFixed1 (snd r))))
  /\ muteToggle_active d' = muteToggle_active d
  /\ audioToggle_active d' = audioToggle_active d
  /\ previewButton_classList d' = previewButton_classList d.
Proof.
  cbv zeta. rewrite page_payload_start, page_payload_end.
  rewrite page_clampRanges_fields. cbv zeta.
  cbn [startRange_value endRange_value startValue_textContent
       endValue_textContent muteToggle_active audioToggle_active
       previewButton_classList set_texts set_ranges].
  repeat split.
Qed.

End PageProperties.

(** ** Submission: C5, C9 and C10 *)

Section Submission.

Variable JSON_stringify : Object -> option nat -> string.

Lemma payload_audioOnly d :
  get_prop "audioOnly" (payload d)
  = Some (VBool (is_active (audioToggle_active d))).
Proof.
  unfold payload. cbn. now destruct (is_active (audioToggle_active d)).
Qed.

Lemma payload_mute d :
  get_prop "mute" (payload d)
  = Some (VBool (if is_active (audioToggle_active d) then false
                 else is_active (muteToggle_active d))).
Proof.
  unfold payload. cbn. now destruct (is_active (audioToggle_active d)).
Qed.

Lemma payload_keys d : keys (payload d) = ["start"; "end"; "mute"; "audioOnly"].
Proof.
  unfold payload. cbn. now destruct (is_active (audioToggle_active d)).
Qed.

Lemma is_active_toggleButton a :
  is_active (toggleButton a) = negb (is_active a).
Proof. unfold toggleButton. now destruct (is_active a). Qed.

(** C5.  In the payload [audioOnly] is the state of the audio toggle and
    [mute] is false when [audioOnly] is true and the state of the mute
    toggle otherwise.  Submitting leaves the page, and so both toggles, as
    they were, with or without a host.  A click on one toggle inverts that
    toggle and leaves the attribute of the other one alone: the rule is
    not applied when a toggle is clicked. *)
Theorem mute_forced_off_in_payload_only (tg : bool) (d : Dom) :
  get_prop "audioOnly" (payload d)
  = Some (VBool (is_active (audioToggle_active d)))
  /\ get_prop "mute" (payload d)
     = Some (VBool (if is_active (audioToggle_active d) then false
                    else is_active (muteToggle_active d)))
  /\ fst (submit JSON_stringify tg d) = d
  /\ (exists d',
        handle JSON_stringify tg ClickAudio d = Some (d', [])
        /\ muteToggle_active d' = muteToggle_active d
        /\ is_active (audioToggle_active d')
           = negb (is_active (audioToggle_active d)))
  /\ (exists d',
        handle JSON_stringify tg ClickMute d = Some (d', [])
        /\ audioToggle_active d' = audioToggle_active d
        /\ is_active (muteToggle_active d')
           = negb (is_active (muteToggle_active d))).
Proof.
  split; [apply payload_audioOnly|].
  split; [apply payload_mute|].
  split; [unfold submit; destruct tg; reflexivity|].
  split; eexists; (split; [reflexivity|]); cbn;
    (split; [reflexivity | apply is_active_toggleButton]).
Qed.

(** C9.  With a host the click on submit sends the serialised payload and
    then asks the host to close; without one it shows the payload, indented
    by two, in an alert.  In both cases the handler runs to its end and
    the page is unchanged. *)
Theorem submit_delivers_or_shows (d : Dom) :
  handle JSON_stringify true ClickSubmit d
  = Some (d, [SendData (JSON_stringify (payload d) None); Close])
  /\ handle JSON_stringify false ClickSubmit d
     = Some (d, [Alert ("Payload: "
                        ++ JSON_stringify (payload d) (Some 2%nat))])
  /\ (forall tg es,
        run JSON_stringify tg (ClickSubmit :: es) d
        = option_map
            (fun r => (fst r, snd (submit JSON_stringify tg d) ++ snd r)%list)
            (run JSON_stringify tg es d)).
Proof.
  split; [reflexivity|]. split; [reflexivity|].
  intros tg es. cbn [run handle].
  assert (submit JSON_stringify tg d
          = (d, snd (submit JSON_stringify tg d))) as ->
    by (unfold submit; destruct tg; reflexivity).
  cbn [snd]. destruct (run JSON_stringify tg es d) as [[d2 fx2]|]; reflexivity.
Qed.

Lemma payload_set_classList l d : payload (set_classList l d) = payload d.
Proof. reflexivity. Qed.

Lemma set_classList_twice l l' d :
  set_classList l (set_classList l' d) = set_classList l d.
Proof. reflexivity. Qed.

Lemma same_but_classList_fields d1 d2 :
  same_but_classList d1 d2 ->
  exists l, d1 = set_classList l d2.
Proof.
  intros H. exists (previewButton_classList d1).
  transitivity (set_classList (previewButton_classList d1)
                  (set_classList [] d1)); [now destruct d1|].
  now rewrite H.
Qed.

Lemma clampRanges_set_classList l d :
  clampRanges (set_classList l d)
  = option_map (set_classList l) (clampRanges d).
Proof.
  unfold clampRanges. cbn [startRange_value endRange_value set_classList].
  destruct (Number (startRange_value d)) as [a|]; [|reflexivity].
  destruct (Number (endRange_value d)) as [b|]; [|reflexivity].
  destruct (normalize a b) as [st en].
  destruct (toFixed1 st); [|reflexivity].
  destruct (toFixed1 en); reflexivity.
Qed.

(** A handler other than that of the preview button does not look at the
    class list: on two pages that differ only there it has the same effects
    and leaves two pages that differ only there. *)
Lemma handle_same_but_classList tg e d1 d2 :
  is_preview e = false ->
  same_but_classList d1 d2 ->
  match handle JSON_stringify tg e d1, handle JSON_stringify tg e d2 with
  | Some (d1', fx1), Some (d2', fx2) =>
      fx1 = fx2 /\ same_but_classList d1' d2'
  | None, None => True
  | _, _ => False
  end.
Proof.
  intros He H. destruct (same_but_classList_fields d1 d2 H) as [l ->].
  clear H. unfold same_but_classList.
  destruct e; try discriminate; cbn [handle].
  - change (set_ranges v (endRange_value (set_classList l d2))
              (set_classList l d2))
      with (set_classList l (set_ranges v (endRange_value d2) d2)).
    rewrite clampRanges_set_classList.
    destruct (clampRanges (set_ranges v (endRange_value d2) d2));
      cbn; auto.
  - change (set_ranges (startRange_value (set_classList l d2)) v
              (set_classList l d2))
      with (set_classList l (set_ranges (startRange_value d2) v d2)).
    rewrite clampRanges_set_classList.
    destruct (clampRanges (set_ranges (startRange_value d2) v d2));
      cbn; auto.
  - split; reflexivity.
  - split; reflexivity.
  - unfold submit. rewrite payload_set_classList.
    destruct tg; split; reflexivity.
Qed.

(** Clicks on the preview button can be left out of any sequence of events
    without a change to the effects or, the class list apart, to the
    page. *)
Lemma run_without_preview tg es : forall d1 d2,
  same_but_classList d1 d2 ->
  match run JSON_stringify tg es d1,
        run JSON_stringify tg (without_preview es) d2 with
  | Some (d1', fx1), Some (d2', fx2) =>
      fx1 = fx2 /\ same_but_classList d1' d2'
  | None, None => True
  | _, _ => False
  end.
Proof.
  induction es as [|e es IH]; intros d1 d2 H.
  - cbn. auto.
  - destruct (is_preview e) eqn:He.
    + destruct e; try discriminate.
      cbn [without_preview filter is_preview negb run handle].
      fold (without_preview es).
      specialize (IH (set_classList
                        (classList_toggle "active"
                           (previewButton_classList d1)) d1) d2 H).
      destruct (run JSON_stringify tg es _) as [[d1' fx1]|];
        destruct (run JSON_stringify tg (without_preview es) d2)
          as [[d2' fx2]|]; auto.
    + unfold without_preview. cbn [filter]. rewrite He. cbn [negb run].
      fold (without_preview es).
      pose proof (handle_same_but_classList tg e d1 d2 He H) as Hh.
      destruct (handle JSON_stringify tg e d1) as [[a1 f1]|];
        destruct (handle JSON_stringify tg e d2) as [[a2 f2]|];
        try contradiction; auto.
      destruct Hh as [-> Ha]. specialize (IH a1 a2 Ha).
      destruct (run JSON_stringify tg es a1) as [[d1' fx1]|];
        destruct (run JSON_stringify tg (without_preview es) a2)
          as [[d2' fx2]|]; try contradiction; auto.
      destruct IH as [-> Hd]. auto.
Qed.

(** C10.  Any number of clicks on the preview button runs without an
    effect on the host and changes nothing but the class list of that
    button; the payload, and with it what a submission sends or shows, is
    the same as before.  The payload has the four properties start, end,
    mute and audioOnly, in that order, whether or not the override has
    been applied.  More generally, the calls made on the host along any
    sequence of events are those made along the sequence without its
    preview clicks. *)
Theorem preview_clicks_keep_payload (tg : bool) (n : nat) (d : Dom) :
  (exists d',
     run JSON_stringify tg (repeat ClickPreview n) d = Some (d', [])
     /\ d' = set_classList (previewButton_classList d') d
     /\ payload d' = payload d
     /\ snd (submit JSON_stringify tg d') = snd (submit JSON_stringify tg d)
     /\ keys (payload d') = ["start"; "end"; "mute"; "audioOnly"])
  /\ (forall es,
        option_map snd (run JSON_stringify tg es d)
        = option_map snd (run JSON_stringify tg (without_preview es) d)).
Proof.
  split.
  - revert d. induction n as [|n IH]; intros d.
    + exists d. cbn [repeat run]. repeat split.
      * now destruct d.
      * apply payload_keys.
    + destruct (IH (set_classList
                      (classList_toggle "active" (previewButton_classList d))
                      d)) as (d' & Hr & Hd & Hp & Hs & Hk).
      exists d'. cbn [repeat run handle]. rewrite Hr. cbn [app].
      repeat split.
      * rewrite Hd at 1. apply set_classList_twice.
      * rewrite Hp. apply payload_set_classList.
      * rewrite Hs. unfold submit. destruct tg; reflexivity.
      * exact Hk.
  - intros es. pose proof (run_without_preview tg es d d eq_refl) as H.
    destruct (run JSON_stringify tg es d) as [[d1 fx1]|];
      destruct (run JSON_stringify tg (without_preview es) d)
        as [[d2 fx2]|]; try contradiction; [|reflexivity].
    destruct H as [-> _]. reflexivity.
Qed.

End Submission.

(** ** The launcher: C6 to C8 *)

Section LauncherProperties.
Import Launcher.

Variable env : Env.

Lemma with_trace_twice tr tr' sh :
  with_trace tr (with_trace tr' sh) = with_trace tr sh.
Proof. reflexivity. Qed.

Lemma with_trace_same sh : with_trace (trace sh) sh = sh.
Proof. now destruct sh. Qed.

(** [kill] signals every operand, whether or not the signals before it
    were delivered, and lets the script go on. *)
Lemma signal_each_all ids sh :
  signal_each env ids sh
  = (Done (existsb (kill_delivered env) ids),
     with_trace
       (trace sh ++ map (fun id => Kill id (kill_delivered env id)) ids)
       sh).
Proof.
  revert sh. induction ids as [|id r IH]; intros sh.
  - cbn. now rewrite app_nil_r, with_trace_same.
  - cbn [signal_each]. unfold bind at 1. unfold emit at 1.
    unfold bind at 1. rewrite IH. cbn [ret existsb].
    rewrite with_trace_twice. cbn [trace with_trace map].
    now rewrite <- app_assoc.
Qed.

Lemma kill_signals_all ids sh :
  exists st,
    kill env ids sh
    = (Done st,
       with_trace
         (trace sh ++ map (fun id => Kill id (kill_delivered env id)) ids)
         sh).
Proof.
  unfold kill, bind. rewrite signal_each_all.
  exists (if existsb (kill_delivered env) ids then 0 else 1)%Z. reflexivity.
Qed.

(** [wait] returns from every operand in turn. *)
Lemma wait_returns_from_all ids last sh :
  exists st,
    wait env last ids sh
    = (Done st,
       with_trace
         (trace sh ++ map (fun id => Wait id (wait_status env id)) ids)
         sh).
Proof.
  revert last sh. induction ids as [|id r IH]; intros last sh.
  - exists last. cbn. now rewrite app_nil_r, with_trace_same.
  - destruct (IH (wait_status env id)
                (with_trace (trace sh ++ [Wait id (wait_status env id)]) sh))
      as [st Hst].
    exists st. cbn [wait]. unfold bind at 1. unfold emit at 1.
    rewrite Hst. rewrite with_trace_twice. cbn [trace with_trace map].
    now rewrite <- app_assoc.
Qed.

(** [cleanup] stops at its first line when that line cannot be
    written. *)
Lemma cleanup_stopped sh :
  echo_ok env Stopping = false -> cleanup env sh = (Exiting 1%Z, sh).
Proof.
  intros H. unfold cleanup. unfold bind at 1. unfold echo. now rewrite H.
Qed.

(** [cleanup] once both mandatory children have been started, when its
    first line can be written. *)
Lemma cleanup_trace sh a w :
  echo_ok env Stopping = true ->
  API_PID sh = Some a ->
  WORKER_PID sh = Some w ->
  exists sh',
    cleanup env sh = (Done tt, sh')
    /\ trace sh'
       = (trace sh
          ++ Echo Stopping
          :: map (fun id => Kill id (kill_delivered env id))
               (a :: w :: if_set (BOT_PID sh))
          ++ map (fun id => Wait id (wait_status env id))
               (a :: w :: if_set (BOT_PID sh)))%list.
Proof.
  intros He Ha Hw. unfold cleanup, or_true.
  unfold bind at 1. unfold echo. rewrite He. unfold emit at 1.
  unfold bind at 1. unfold bind at 1. unfold get at 1.
  cbn [API_PID with_trace]. rewrite Ha. cbn [nounset ret].
  unfold bind at 1. unfold bind at 1. unfold get at 1.
  cbn [WORKER_PID with_trace]. rewrite Hw. cbn [nounset ret].
  unfold bind at 1. unfold get at 1. cbn [BOT_PID with_trace].
  unfold bind at 1. unfold bind at 1.
  set (ids := a :: w :: if_set (BOT_PID sh)).
  destruct (kill_signals_all ids (with_trace (trace sh ++ [Echo Stopping]) sh))
    as [st Hk].
  fold (with_trace (trace sh ++ [Echo Stopping]) sh). rewrite Hk.
  cbn [ret]. unfold bind at 1.
  destruct (wait_returns_from_all ids 0%Z
              (with_trace
                 (trace (with_trace (trace sh ++ [Echo Stopping]) sh)
                  ++ map (fun id => Kill id (kill_delivered env id)) ids)
                 (with_trace (trace sh ++ [Echo Stopping]) sh)))
    as [st' Hw'].
  rewrite Hw'. cbn [ret]. eexists. split; [reflexivity|].
  cbn [trace with_trace]. rewrite <- !app_assoc. reflexivity.
Qed.

Lemma non_empty_spec v :
  non_empty v = true <-> exists s, v = Some s /\ s <> "".
Proof.
  unfold non_empty. destruct v as [s|].
  - rewrite negb_true_iff. split.
    + intros H. exists s. split; [reflexivity|].
      intros ->. discriminate.
    + intros (s' & [= <-] & Hs). now apply String.eqb_neq.
  - split; [discriminate | intros (s & [=] & _)].
Qed.

(** Runs the steps of a script down to the tests on the environment. *)
Ltac sh_steps :=
  cbv beta iota zeta delta
    [bind launch emit ret get exit echo errexit nounset with_trace initial
     set_API_PID set_WORKER_PID set_BOT_PID trap_cleanup_EXIT
     Z.eqb negb andb
     API_PID WORKER_PID BOT_PID trap_EXIT trace app].

(** When lines 73-101 run to their end, the script reaches line 111. *)
Lemma startup_reaches_wait :
  gets_through env = true -> startup env initial = (Done tt, at_wait env).
Proof.
  unfold gets_through, prerequisites, startup, start_children, at_wait.
  destruct (root_dir env); [|discriminate].
  destruct (PYTHONPATH env); [|discriminate].
  destruct (has_uvicorn env); [|discriminate].
  destruct (echo_ok env (Started api (new_pid env api))) eqn:E1;
    [|discriminate].
  destruct (echo_ok env (Started worker (new_pid env worker))) eqn:E2;
    [|discriminate].
  destruct (non_empty (TELEGRAM_BOT_TOKEN env));
    cbn [andb]; intros H; sh_steps; rewrite E1; sh_steps; rewrite E2; sh_steps;
    rewrite H; reflexivity.
Qed.


(** The launches along a trace are those of its parts. *)
Lemma spawned_app tr tr' :
  spawned (tr ++ tr') = (spawned tr ++ spawned tr')%list.
Proof.
  induction tr as [|e tr IH]; [reflexivity|].
  destruct e; cbn [app spawned]; now rewrite IH.
Qed.

Lemma spawned_kills ids :
  spawned (map (fun id => Kill id (kill_delivered env id)) ids) = [].
Proof. induction ids; [reflexivity | assumption]. Qed.

Lemma spawned_waits ids :
  spawned (map (fun id => Wait id (wait_status env id)) ids) = [].
Proof. induction ids; [reflexivity | assumption]. Qed.









Lemma started_at_wait :
  map snd (spawned (trace (at_wait env)))
  = new_pid env api :: new_pid env worker :: if_set (BOT_PID (at_wait env)).
Proof.
  unfold at_wait. cbn [trace BOT_PID].
  now destruct (non_empty (TELEGRAM_BOT_TOKEN env)).
Qed.

(** The whole run once line 111 has been reached, when the first line of
    [cleanup] can be written. *)
Lemma run_from_wait (t : Trigger) :
  gets_through env = true ->
  echo_ok env Stopping = true ->
  run env t
  = (trace (at_wait env)
     ++ Echo Stopping
     :: map (fun id => Kill id (kill_delivered env id))
          (map snd (spawned (trace (at_wait env))))
     ++ map (fun id => Wait id (wait_status env id))
          (map snd (spawned (trace (at_wait env))))
     ++ [Exit (status_of t)])%list.
Proof.
  intros H He. unfold run. rewrite (startup_reaches_wait H).
  assert (forall e,
    leave env e (at_wait env)
    = (trace (at_wait env)
       ++ Echo Stopping
       :: map (fun id => Kill id (kill_delivered env id))
            (map snd (spawned (trace (at_wait env))))
       ++ map (fun id => Wait id (wait_status env id))
            (map snd (spawned (trace (at_wait env))))
       ++ [Exit (ending_status e)])%list) as L.
  { intros e. unfold leave.
    change (trap_EXIT (at_wait env)) with true. cbv iota.
    destruct (cleanup_trace (at_wait env) (new_pid env api)
                (new_pid env worker) He eq_refl eq_refl) as (sh' & -> & ->).
    rewrite started_at_wait.
    rewrite <- app_assoc. cbn [app]. now rewrite <- app_assoc. }
  rewrite L. now destruct t.
Qed.

(** The whole run once line 111 has been reached, when the first line of
    [cleanup] cannot be written. *)
Lemma run_unannounced (t : Trigger) :
  gets_through env = true ->
  echo_ok env Stopping = false ->
  run env t
  = (trace (at_wait env)
     ++ [Exit (match t with
               | ChildrenExited => 1
               | Signalled _ => status_of t
               end)])%list.
Proof.
  intros H He. unfold run. rewrite (startup_reaches_wait H).
  unfold leave. change (trap_EXIT (at_wait env)) with true. cbv iota.
  rewrite (cleanup_stopped (at_wait env) He). now destruct t.
Qed.



(** C8.  Without [uvicorn] the script ends with status 1 and has launched
    nothing: it has printed the complaint and exited, or has stopped
    before it could print it. *)
Theorem no_uvicorn_no_children (t : Trigger) :
  has_uvicorn env = false ->
  (run env t = [Exit 1] \/ run env t = [Echo UvicornNotFound; Exit 1])
  /\ spawned (run env t) = []
  /\ exit_status (run env t) = Some 1%Z.
Proof.
  intros H. unfold run, startup, start_children.
  destruct (root_dir env); [|cbn; auto].
  destruct (PYTHONPATH env); [|cbn; auto].
  rewrite H. sh_steps. destruct (echo_ok env UvicornNotFound); cbn; auto.
Qed.

End LauncherProperties.

(** C6.  A run in which the shutdown stops no child.  Every line of the
    startup can be written and a token is set, so the API, the worker and
    the bot are launched and the script waits at line 111; when the shell
    leaves that wait the line of line 104 cannot be written.  The write
    is the first command of [cleanup] and, unlike the [kill] and the
    [wait] after it, has no [|| true]: under [set -e] the trap ends
    there.  No child is signalled, none is waited for, and the shell
    exits at once, with status 129 after a hang-up and with status 1 when
    the children had ended by themselves. *)
Theorem unwritable_announcement_skips_kill :
  let env :=
    Launcher.with_echo_ok Launcher.all_but_Stopping
      (Launcher.example_env true (Some "123:abc")) in
  Launcher.Running env (Launcher.at_wait env)
  /\ Launcher.run env (Launcher.Signalled Launcher.SIGHUP)
     = [Launcher.Spawn Launcher.api 101%positive;
        Launcher.Echo (Launcher.Started Launcher.api 101%positive);
        Launcher.Spawn Launcher.worker 102%positive;
        Launcher.Echo (Launcher.Started Launcher.worker 102%positive);
        Launcher.Spawn Launcher.bot 103%positive;
        Launcher.Echo (Launcher.Started Launcher.bot 103%positive);
        Launcher.Exit 129%Z]
  /\ Launcher.run env Launcher.ChildrenExited
     = [Launcher.Spawn Launcher.api 101%positive;
        Launcher.Echo (Launcher.Started Launcher.api 101%positive);
        Launcher.Spawn Launcher.worker 102%positive;
        Launcher.Echo (Launcher.Started Launcher.worker 102%positive);
        Launcher.Spawn Launcher.bot 103%positive;
        Launcher.Echo (Launcher.Started Launcher.bot 103%positive);
        Launcher.Exit 1%Z]
  /\ forall t,
       map snd (Launcher.spawned (Launcher.run env t))
       = [101; 102; 103]%positive
       /\ Launcher.killed (Launcher.run env t) = []
       /\ Launcher.waited (Launcher.run env t) = [].
Proof.
  cbv zeta. split; [reflexivity|]. split; [reflexivity|].
  split; [reflexivity|].
  intros [|[]]; repeat split.
Qed.

(** C7.  A run in which a token is set and no bot is launched, and one in
    which the token is absent and the script does not get to line 111.
    [uvicorn] is installed and [PYTHONPATH] is not set.  Line 76 expands
    [$PYTHONPATH] without a default, which [set -u] answers by ending the
    script with status 1, where line 95 writes [${TELEGRAM_BOT_TOKEN:-}]:
    the test of line 95 is never made, nothing is launched and nothing is
    printed, and this whatever the token is. *)
Theorem unset_PYTHONPATH_starts_no_bot :
  let with_it :=
    Launcher.without_PYTHONPATH
      (Launcher.example_env true (Some "123:abc")) in
  let without_it :=
    Launcher.without_PYTHONPATH (Launcher.example_env true None) in
  Launcher.has_uvicorn with_it = true
  /\ Launcher.non_empty (Launcher.TELEGRAM_BOT_TOKEN with_it) = true
  /\ Launcher.non_empty (Launcher.TELEGRAM_BOT_TOKEN without_it) = false
  /\ (forall t,
        Launcher.run with_it t = [Launcher.Exit 1%Z]
        /\ ~ In Launcher.bot
             (map fst (Launcher.spawned (Launcher.run with_it t))))
  /\ (forall t,
        Launcher.run without_it t = [Launcher.Exit 1%Z]
        /\ ~ In (Launcher.Echo Launcher.BotSkipped)
             (Launcher.run without_it t))
  /\ (forall sh, ~ Launcher.Running with_it sh)
  /\ (forall sh, ~ Launcher.Running without_it sh).
Proof.
  cbv zeta. repeat split; try reflexivity.
  - cbn. tauto.
  - cbn. intros [H|[]]. discriminate H.
  - intros sh H. discriminate H.
  - intros sh H. discriminate H.
Qed.

(** An instance of C8: a token is set, [uvicorn] is not installed. *)
Lemma no_uvicorn_no_children_witness :
  Launcher.has_uvicorn (Launcher.example_env false (Some "123:abc")) = false
  /\ Launcher.exit_status
       (Launcher.run (Launcher.example_env false (Some "123:abc"))
          Launcher.ChildrenExited)
     = Some 1%Z.
Proof.
  split; [reflexivity|].
  exact (proj2 (proj2 (no_uvicorn_no_children
                         (Launcher.example_env false (Some "123:abc"))
                         Launcher.ChildrenExited eq_refl))).
Defined.

(** * Further properties of the page script *)

Section NormalizeFurther.


(** X3.  When the proposed start is not negative, normalising the result
    again returns the same pair, before any rounding. *)
Theorem normalize_idempotent_from_zero (a b : Q) :
  0 <= a ->
  normalize (fst (normalize a b)) (snd (normalize a b)) = normalize a b.
Proof.
  intros Ha. unfold normalize.
  split_cases; try reflexivity; exfalso; lra.
Qed.

(** An instance of X3 in the range where the width is lost. *)
Lemma normalize_idempotent_from_zero_witness :
  0 <= 59.8
  /\ normalize (fst (normalize 59.8 59.9)) (snd (normalize 59.8 59.9))
     = normalize 59.8 59.9.
Proof.
  split; [lra|]. apply (normalize_idempotent_from_zero 59.8 59.9). lra.
Defined.

End NormalizeFurther.

Section ListenersFurther.

Variable JSON_stringify : Object -> option nat -> string.


Lemma has_class_toggle_same t l :
  has_class t (classList_toggle t l) = negb (has_class t l).
Proof.
  unfold classList_toggle, has_class.
  destruct (existsb (String.eqb t) l) eqn:E; cbn [negb].
  - clear E. induction l as [|c l IH]; [reflexivity|].
    cbn [filter]. destruct (String.eqb t c) eqn:Ec; cbn [negb]; [exact IH|].
    cbn [existsb]. now rewrite Ec, IH.
  - rewrite existsb_app, E. cbn. now rewrite String.eqb_refl.
Qed.

Lemma has_class_toggle_other c t l :
  c <> t -> has_class c (classList_toggle t l) = has_class c l.
Proof.
  intros Hc. apply String.eqb_neq in Hc.
  unfold classList_toggle, has_class.
  destruct (existsb (String.eqb t) l).
  - induction l as [|x l IH]; [reflexivity|].
    cbn [filter existsb]. destruct (String.eqb_spec t x) as [<-|Hx].
    + cbn [negb]. now rewrite Hc, IH.
    + cbn [negb existsb]. now rewrite IH.
  - rewrite existsb_app. cbn. rewrite Hc. now rewrite !orb_false_r.
Qed.

(** X7.  After [n] clicks on the preview button the button carries the
    class active exactly when it carried it before and [n] is even, or did
    not carry it and [n] is odd; every other class is where it was. *)
Theorem preview_class_parity (tg : bool) (n : nat) (d : Dom) :
  exists d',
    run JSON_stringify tg (repeat ClickPreview n) d = Some (d', [])
    /\ has_class "active" (previewButton_classList d')
       = xorb (has_class "active" (previewButton_classList d)) (Nat.odd n)
    /\ forall c, c <> "active" ->
         has_class c (previewButton_classList d')
         = has_class c (previewButton_classList d).
Proof.
  revert d. induction n as [|n IH]; intros d.
  - exists d. cbn [repeat run]. split; [reflexivity|].
    split; [now rewrite xorb_false_r | reflexivity].
  - destruct (IH (set_classList
                    (classList_toggle "active" (previewButton_classList d))
                    d)) as (d' & Hr & Ha & Ho).
    exists d'. cbn [repeat run handle]. rewrite Hr. cbn [app].
    split; [reflexivity|]. cbn [previewButton_classList set_classList] in *.
    split.
    + rewrite Ha, has_class_toggle_same, Nat.odd_succ, <- Nat.negb_odd.
      now destruct (has_class "active" (previewButton_classList d)),
                   (Nat.odd n).
    + intros c Hc. rewrite (Ho c Hc). now apply has_class_toggle_other.
Qed.

(** X8.  Every listener writes to its own part of the page only: a move of
    a slider leaves the toggles and the classes alone, a click leaves the
    sliders and the displayed texts alone, each toggle changes with its own
    click only, and the classes with a preview click only.  Only a click on
    submit calls the host. *)
Theorem handle_frame (tg : bool) (e : Event) (d d' : Dom) fx :
  handle JSON_stringify tg e d = Some (d', fx) ->
  (is_input e = false ->
   startRange_value d' = startRange_value d
   /\ endRange_value d' = endRange_value d
   /\ startValue_textContent d' = startValue_textContent d
   /\ endValue_textContent d' = endValue_textContent d)
  /\ (e <> ClickMute -> muteToggle_active d' = muteToggle_active d)
  /\ (e <> ClickAudio -> audioToggle_active d' = audioToggle_active d)
  /\ (e <> ClickPreview ->
      previewButton_classList d' = previewButton_classList d)
  /\ (is_submit e = false -> fx = []).
Proof.
  destruct e; cbn [handle is_input is_submit].
  - destruct (clampRanges _) as [d1|] eqn:Hc; [|discriminate].
    intros [= <- <-]. apply clampRanges_inv in Hc.
    destruct Hc as (a & b & s & t & _ & _ & _ & _ & ->).
    repeat split; try reflexivity; discriminate.
  - destruct (clampRanges _) as [d1|] eqn:Hc; [|discriminate].
    intros [= <- <-]. apply clampRanges_inv in Hc.
    destruct Hc as (a & b & s & t & _ & _ & _ & _ & ->).
    repeat split; try reflexivity; discriminate.
  - intros [= <- <-]. repeat split; try reflexivity; congruence.
  - intros [= <- <-]. repeat split; try reflexivity; congruence.
  - intros [= <- <-]. repeat split; try reflexivity; congruence.
  - unfold submit. destruct tg; intros [= <- <-];
      repeat split; try reflexivity; discriminate.
Qed.

Lemma clampRanges_set_toggles m a d :
  clampRanges (set_toggles m a d)
  = option_map (set_toggles m a) (clampRanges d).
Proof.
  unfold clampRanges. cbn [startRange_value endRange_value set_toggles].
  destruct (Number (startRange_value d)) as [x|]; [|reflexivity].
  destruct (Number (endRange_value d)) as [y|]; [|reflexivity].
  destruct (normalize x y) as [st en].
  destruct (toFixed1 st); [|reflexivity].
  destruct (toFixed1 en); reflexivity.
Qed.

Lemma clampRanges_toggles d d' :
  clampRanges d = Some d' ->
  muteToggle_active d' = muteToggle_active d
  /\ audioToggle_active d' = audioToggle_active d
  /\ previewButton_classList d' = previewButton_classList d.
Proof.
  intros Hc. apply clampRanges_inv in Hc.
  destruct Hc as (a & b & s & t & _ & _ & _ & _ & ->).
  repeat split.
Qed.

(** X11.  Two events whose listeners work on different parts of the page
    can be handled in either order, with the same page and the same calls
    on the host at the end: a preview click and any other event, the two
    toggles, a toggle and a move of a slider. *)
Theorem apart_events_commute (tg : bool) (e1 e2 : Event) (d : Dom) :
  apart e1 e2 = true ->
  run JSON_stringify tg [e1; e2] d = run JSON_stringify tg [e2; e1] d.
Proof.
  destruct e1, e2; cbn [apart]; try discriminate; intros _;
    cbn [run handle];
    cbn [startRange_value endRange_value muteToggle_active
         audioToggle_active previewButton_classList
         set_toggles set_classList set_ranges];
    repeat match goal with
    | |- context [clampRanges (set_ranges ?s ?e (set_toggles ?m ?a ?d))] =>
        change (set_ranges s e (set_toggles m a d))
          with (set_toggles m a (set_ranges s e d));
        rewrite clampRanges_set_toggles
    | |- context [clampRanges (set_ranges ?s ?e (set_classList ?l ?d))] =>
        change (set_ranges s e (set_classList l d))
          with (set_classList l (set_ranges s e d));
        rewrite clampRanges_set_classList
    end;
    try reflexivity;
    try (unfold submit; destruct tg; reflexivity);
    match goal with
    | |- context [clampRanges ?x] =>
        destruct (clampRanges x) as [d1|] eqn:Hc; [|reflexivity];
        destruct (clampRanges_toggles _ _ Hc) as (Hm & Ha & Hl);
        cbn [option_map]; rewrite ?Hm, ?Ha, ?Hl; reflexivity
    end.
Qed.

End ListenersFurther.

(** An instance of X8: a click on the mute toggle, which had no attribute. *)
Lemma handle_frame_witness :
  handle blank_stringify false ClickMute (page "1" "2")
  = Some (set_toggles (Some "true") None (page "1" "2"), [])
  /\ ((is_input ClickMute = false ->
       startRange_value (set_toggles (Some "true") None (page "1" "2"))
       = startRange_value (page "1" "2")
       /\ endRange_value (set_toggles (Some "true") None (page "1" "2"))
          = endRange_value (page "1" "2")
       /\ startValue_textContent
            (set_toggles (Some "true") None (page "1" "2"))
          = startValue_textContent (page "1" "2")
       /\ endValue_textContent
            (set_toggles (Some "true") None (page "1" "2"))
          = endValue_textContent (page "1" "2"))
      /\ (ClickMute <> ClickMute ->
          muteToggle_active (set_toggles (Some "true") None (page "1" "2"))
          = muteToggle_active (page "1" "2"))
      /\ (ClickMute <> ClickAudio ->
          audioToggle_active (set_toggles (Some "true") None (page "1" "2"))
          = audioToggle_active (page "1" "2"))
      /\ (ClickMute <> ClickPreview ->
          previewButton_classList
            (set_toggles (Some "true") None (page "1" "2"))
          = previewButton_classList (page "1" "2"))
      /\ (is_submit ClickMute = false -> @nil Effect = [])).
Proof.
  split; [reflexivity|].
  exact (handle_frame blank_stringify false ClickMute (page "1" "2")
           (set_toggles (Some "true") None (page "1" "2")) [] eq_refl).
Defined.

(** An instance of X11: a click on the mute toggle and a move of the end
    slider. *)
Lemma apart_events_commute_witness :
  apart ClickMute (InputEnd "30") = true
  /\ run blank_stringify true [ClickMute; InputEnd "30"] (page "1" "2")
     = run blank_stringify true [InputEnd "30"; ClickMute] (page "1" "2").
Proof.
  split; [reflexivity|].
  exact (apart_events_commute blank_stringify true ClickMute (InputEnd "30")
           (page "1" "2")
           eq_refl).
Defined.

(** * Further properties of the page script over its built-ins *)

Section PageFurther.
Import Page.

Context {num : Type} {B : Builtins num}.

Variable tg : bool.

Lemma page_clampRanges_displayed d :
  displayed (clampRanges d) /\ holds_toFixed_texts (clampRanges d).
Proof.
  unfold displayed, holds_toFixed_texts, clampRanges.
  destruct (normalize (Number (startRange_value d))
              (Number (endRange_value d))) as [s e].
  cbn. split; [split; reflexivity|]. split; eexists; reflexivity.
Qed.

Lemma page_handle_displayed e d :
  displayed d /\ holds_toFixed_texts d ->
  displayed (fst (handle tg e d)) /\ holds_toFixed_texts (fst (handle tg e d)).
Proof.
  intros H. destruct e; cbn [handle fst];
    try apply page_clampRanges_displayed; try exact H.
  unfold submit. now destruct tg.
Qed.

Lemma page_run_displayed es : forall d,
  displayed d /\ holds_toFixed_texts d ->
  displayed (fst (run tg es d)) /\ holds_toFixed_texts (fst (run tg es d)).
Proof.
  induction es as [|e r IH]; intros d H; cbn [run].
  - exact H.
  - pose proof (page_handle_displayed e d H) as H1.
    destruct (handle tg e d) as [d1 fx1]. cbn [fst] in H1.
    specialize (IH d1 H1).
    destruct (run tg r d1) as [d2 fx2]. exact IH.
Qed.

(** X9.  Whatever the sliders held when the script was loaded and whatever
    events followed, texts that are no numbers included, afterwards each
    displayed text is the value of its slider followed by the letter s and
    each slider holds a text produced by [toFixed(1)]. *)
Theorem session_keeps_display (es : list Event) (d : Dom) :
  displayed (fst (session tg es d))
  /\ holds_toFixed_texts (fst (session tg es d)).
Proof.
  unfold session, load.
  pose proof (page_run_displayed es (clampRanges d)
                (page_clampRanges_displayed d)) as H.
  destruct (run tg es (clampRanges d)) as [d' fx]. exact H.
Qed.

Lemma page_handle_calls e d :
  forallb (listener_call tg) (snd (handle tg e d)) = true
  /\ List.length (snd (handle tg e d))
     = if is_submit e then (if tg then 2%nat else 1%nat) else 0%nat.
Proof.
  destruct e; cbn; try (split; reflexivity).
  unfold submit. destruct tg; cbn; split; reflexivity.
Qed.

(** X10.  The listeners never fail and call the host only on a click of
    the submit button: over any sequence of events, the calls made are
    two per submit click with a host ([sendData] and [close]), one per
    submit click without ([alert]), and [expand] is called once, when the
    script is loaded with a host, and never by a listener. *)
Theorem run_calls_per_submit (es : list Event) (d : Dom) :
  forallb (listener_call tg) (snd (run tg es d)) = true
  /\ List.length (snd (run tg es d))
     = ((if tg then 2 else 1) * List.length (filter is_submit es))%nat
  /\ snd (session tg es d)
     = ((if tg then [Expand] else []) ++ snd (run tg es (clampRanges d)))%list.
Proof.
  split; [|split].
  - revert d. induction es as [|e r IH]; intros d; cbn [run].
    + reflexivity.
    + pose proof (page_handle_calls e d) as [H1 _].
      destruct (handle tg e d) as [d1 fx1]. cbn [snd] in H1.
      specialize (IH d1). destruct (run tg r d1) as [d2 fx2].
      cbn [snd] in *. rewrite forallb_app, H1, IH. reflexivity.
  - revert d. induction es as [|e r IH]; intros d; cbn [run filter].
    + cbn. now rewrite Nat.mul_0_r.
    + pose proof (page_handle_calls e d) as [_ H1].
      destruct (handle tg e d) as [d1 fx1]. cbn [snd] in H1.
      specialize (IH d1). destruct (run tg r d1) as [d2 fx2].
      cbn [snd] in *. rewrite length_app, H1, IH.
      destruct (is_submit e); cbn [List.length]; destruct tg; lia.
  - unfold session, load.
    now destruct (run tg es (clampRanges d)).
Qed.

End PageFurther.

(** * Further properties of the launcher *)

Section LauncherFurther.
Import Launcher.

Variable env : Env.

(** X12.  With [PYTHONPATH] unset the script ends at line 76 with status
    1: nothing is launched and nothing is printed, not even the complaint
    about a missing [uvicorn], whatever else the environment holds. *)
Theorem unset_PYTHONPATH_stops_launcher (t : Trigger) :
  PYTHONPATH env = None -> run env t = [Exit 1].
Proof.
  intros H. unfold run, startup, start_children. rewrite H.
  now destruct (root_dir env).
Qed.




(** X17.  When lines 73-101 run to their end, the bot has been launched
    exactly when [TELEGRAM_BOT_TOKEN] is set and not empty.  Without it
    the script has printed that the bot is skipped and waits at line 111,
    having launched the API and the worker, in that order, and nothing
    else; with it the bot is the third child.  Nothing is launched after
    line 111. *)
Theorem bot_third_iff_token (t : Trigger) :
  gets_through env = true ->
  exists sh,
    startup env initial = (Done tt, sh)
    /\ (In bot (map fst (spawned (trace sh)))
        <-> exists s, TELEGRAM_BOT_TOKEN env = Some s /\ s <> "")
    /\ map fst (spawned (trace sh))
       = (if non_empty (TELEGRAM_BOT_TOKEN env)
          then [api; worker; bot] else [api; worker])
    /\ (In (Echo BotSkipped) (trace sh)
        <-> non_empty (TELEGRAM_BOT_TOKEN env) = false)
    /\ spawned (run env t) = spawned (trace sh).
Proof.
  intros H. exists (at_wait env).
  split; [now apply startup_reaches_wait|].
  rewrite <- non_empty_spec.
  assert (spawned (run env t) = spawned (trace (at_wait env))) as R.
  { destruct (echo_ok env Stopping) eqn:E.
    - rewrite (run_from_wait env t H E), spawned_app. cbn [spawned].
      rewrite !spawned_app, spawned_kills, spawned_waits. cbn [spawned app].
      now rewrite app_nil_r.
    - rewrite (run_unannounced env t H E), spawned_app. cbn [spawned].
      now rewrite app_nil_r. }
  rewrite R. clear R. unfold at_wait. cbn [trace].
  destruct (non_empty (TELEGRAM_BOT_TOKEN env)); cbn.
  - repeat split; try tauto; try discriminate.
    intros [?|[?|[?|[?|[?|[?|[]]]]]]]; discriminate.
  - repeat split; try tauto; try discriminate.
    intros [?|[?|[]]]; discriminate.
Qed.

End LauncherFurther.

(** An instance of X12: [uvicorn] is installed and a token is set. *)
Lemma unset_PYTHONPATH_stops_launcher_witness :
  Launcher.PYTHONPATH
    (Launcher.mkEnv (Some "/srv/app") None true (Some "123:abc")
       (fun _ => 7%positive) (fun _ => true) (fun _ => 0%Z)
       (fun _ => true)) = None
  /\ Launcher.run
       (Launcher.mkEnv (Some "/srv/app") None true (Some "123:abc")
          (fun _ => 7%positive) (fun _ => true) (fun _ => 0%Z)
          (fun _ => true))
       Launcher.ChildrenExited
     = [Launcher.Exit 1].
Proof.
  split; [reflexivity|].
  exact (unset_PYTHONPATH_stops_launcher
           (Launcher.mkEnv (Some "/srv/app") None true (Some "123:abc")
              (fun _ => 7%positive) (fun _ => true) (fun _ => 0%Z)
              (fun _ => true))
           Launcher.ChildrenExited eq_refl).
Defined.

(** X15.  The script looks at the token only to see whether it is empty:
    two environments that differ in the token alone give the same run when
    both tokens are non-empty, and an empty token gives the run of an unset
    one. *)
Theorem token_is_opaque (env : Launcher.Env) (t : Launcher.Trigger)
    (tok1 tok2 : option string) :
  Launcher.non_empty tok1 = Launcher.non_empty tok2 ->
  Launcher.run (Launcher.with_token tok1 env) t
  = Launcher.run (Launcher.with_token tok2 env) t.
Proof.
  intros H.
  assert (Launcher.startup (Launcher.with_token tok1 env) Launcher.initial
          = Launcher.startup (Launcher.with_token tok2 env) Launcher.initial)
    as S.
  { unfold Launcher.startup, Launcher.start_children.
    cbn [Launcher.TELEGRAM_BOT_TOKEN Launcher.with_token].
    rewrite H. reflexivity. }
  unfold Launcher.run. rewrite S. reflexivity.
Qed.

(** An instance of X15: an empty token and no token. *)
Lemma token_is_opaque_witness :
  Launcher.non_empty (Some "") = Launcher.non_empty None
  /\ Launcher.run
       (Launcher.with_token (Some "") (Launcher.example_env true None))
       (Launcher.Signalled Launcher.SIGINT)
     = Launcher.run
         (Launcher.with_token None (Launcher.example_env true None))
         (Launcher.Signalled Launcher.SIGINT).
Proof.
  split; [reflexivity|].
  exact (token_is_opaque (Launcher.example_env true None)
           (Launcher.Signalled Launcher.SIGINT) (Some "") None eq_refl).
Defined.


(** An instance of X17 with a token. *)
Lemma bot_third_iff_token_witness :
  Launcher.gets_through (Launcher.example_env true (Some "123:abc")) = true
  /\ exists sh,
      Launcher.startup (Launcher.example_env true (Some "123:abc"))
        Launcher.initial
      = (Launcher.Done tt, sh)
      /\ (In Launcher.bot (map fst (Launcher.spawned (Launcher.trace sh)))
          <-> exists s, Some "123:abc" = Some s /\ s <> "")
      /\ map fst (Launcher.spawned (Launcher.trace sh))
         = [Launcher.api; Launcher.worker; Launcher.bot]
      /\ (In (Launcher.Echo Launcher.BotSkipped) (Launcher.trace sh)
          <-> true = false)
      /\ Launcher.spawned
           (Launcher.run (Launcher.example_env true (Some "123:abc"))
              Launcher.ChildrenExited)
         = Launcher.spawned (Launcher.trace sh).
Proof.
  split; [reflexivity|].
  exact (bot_third_iff_token
           (Launcher.example_env true (Some "123:abc"))
           Launcher.ChildrenExited eq_refl).
Defined.

